(** * oci_data_access: the OCI data-access notebook over the earthaccess interface

    The repository's only program is [book/src/oci/oci_data_access.py], a
    jupytext notebook that logs in to Earthdata, searches the catalog and
    opens or downloads granules.  Every one of those operations is a call
    into the third-party [earthaccess] package, whose code is not part of
    the repository.  The embedding therefore has two layers:

    - [Earthaccess], the interface of the calls the notebook makes, with
      the library's behaviour left abstract (any world type, any answers,
      any exception);
    - the notebook itself, cell by cell, in a state-and-exception monad
      that threads the library's world and the interpreter's standard
      output, with Python's own semantics for list and dict subscripts,
      [for], [with] and [bytes.strip] written out.

    What is proved is what the notebook's own code decides: where its
    unguarded subscripts raise and what a complete run therefore needs,
    what a run prints, which exceptions can end it, what the line it
    shows looks like, and which list the download is given. *)

From Stdlib Require Import String List ZArith Lia Bool.
From Stdlib Require Import Strings.Byte.
Import ListNotations.

Local Open Scope string_scope.
Local Open Scope list_scope.

(** ** Python values and exceptions used by the notebook *)

Inductive exn : Type :=
| IndexError                       (* list index out of range *)
| KeyError (key : string)          (* missing dict key *)
| NameError (name : string)        (* unbound global *)
| LibraryError (kind : string).    (* anything raised inside earthaccess *)

(** A float literal as written in the source: [mantissa * 10 ^ exponent]. *)
Record decimal : Type := Decimal { mantissa : Z; exponent : Z }.

Definition bytes : Type := list byte.

(** A Python dict with [str] keys, in insertion order. *)
Definition dict (V : Type) : Type := list (string * V).

(** ** Outcomes and the interpreter monad *)

Inductive outcome (S A : Type) : Type :=
| Returns (a : A) (s : S)
| Raises (e : exn) (s : S).

Arguments Returns {S A} a s.
Arguments Raises {S A} e s.

Definition Py (S A : Type) : Type := S -> outcome S A.

Definition ret {S A} (a : A) : Py S A := fun s => Returns a s.

Definition raise {S A} (e : exn) : Py S A := fun s => Raises e s.

Definition bind {S A B} (m : Py S A) (f : A -> Py S B) : Py S B :=
  fun s =>
    match m s with
    | Returns a s' => f a s'
    | Raises e s' => Raises e s'
    end.

Declare Scope py_scope.
Delimit Scope py_scope with py.
Notation "x <- m ;; k" := (bind m (fun x => k))
  (at level 61, m at next level, right associativity) : py_scope.
Notation "m ;; k" := (bind m (fun _ => k))
  (at level 61, right associativity) : py_scope.
Local Open Scope py_scope.

(** [for x in xs: body] *)
Fixpoint for_each {S A} (xs : list A) (body : A -> Py S unit) : Py S unit :=
  match xs with
  | [] => ret tt
  | x :: xs' => body x ;; for_each xs' body
  end.

(** ** Subscripts *)

(** [l[i]] on a Python list: a negative index counts from the end, an
    index outside [-len, len) raises [IndexError]. *)
Definition list_getitem {A} (l : list A) (i : Z) : option A :=
  let n := Z.of_nat (length l) in
  let j := if (i <? 0)%Z then (i + n)%Z else i in
  if ((j <? 0) || (n <=? j))%Z then None else nth_error l (Z.to_nat j).

Definition getitem {S A} (l : list A) (i : Z) : Py S A :=
  match list_getitem l i with
  | Some x => ret x
  | None => raise IndexError
  end.

(** [d[k]] on a dict: [KeyError] when the key is absent. *)
Fixpoint dict_get {V} (d : dict V) (k : string) : option V :=
  match d with
  | [] => None
  | (k', v) :: d' => if String.eqb k' k then Some v else dict_get d' k
  end.

Definition dict_getitem {S V} (d : dict V) (k : string) : Py S V :=
  match dict_get d k with
  | Some v => ret v
  | None => raise (KeyError k)
  end.

(** ** [bytes.strip()] *)

(** ASCII whitespace: tab, line feed, vertical tab, form feed, carriage
    return and space. *)
Definition is_space (b : byte) : bool :=
  match b with
  | x09 | x0a | x0b | x0c | x0d | x20 => true
  | _ => false
  end.

Fixpoint lstrip (l : bytes) : bytes :=
  match l with
  | [] => []
  | b :: t => if is_space b then lstrip t else l
  end.

Definition rstrip (l : bytes) : bytes := rev (lstrip (rev l)).

Definition strip (l : bytes) : bytes := rstrip (lstrip l).

(** ** Keyword arguments of the two searches

    An absent keyword is [None]. *)

Record DatasetQuery : Type := {
  instrument : option string
}.

Record GranuleQuery : Type := {
  short_name : option string;
  temporal : option (string * string);
  bounding_box : option (decimal * decimal * decimal * decimal);
  cloud_cover : option (Z * Z);
  count : option Z
}.

(** ** The interface of earthaccess, as the notebook calls it

    [World] stands for everything the library touches: its session,
    the remote catalog and object store, the local file system.  Every
    call may change it and may raise. *)

Record Earthaccess : Type := {
  World : Type;
  Auth : Type;
  DataCollection : Type;
  DataGranule : Type;
  FileHandle : Type;
  PyObject : Type;
  (* earthaccess.login(persist=...) *)
  login : bool -> Py World Auth;
  (* earthaccess.search_datasets(instrument=...) *)
  search_datasets : DatasetQuery -> Py World (list DataCollection);
  (* DataCollection.summary() *)
  summary : DataCollection -> Py World (dict PyObject);
  (* str(value), as print applies it *)
  str : PyObject -> string;
  (* earthaccess.search_data(short_name=..., ...) *)
  search_data : GranuleQuery -> Py World (list DataGranule);
  (* earthaccess.open(granules) *)
  open : list DataGranule -> Py World (list FileHandle);
  (* the context-manager protocol and readline of a file-like object;
     __exit__ receives the exception in flight, if any, and answers
     whether it is suppressed *)
  enter : FileHandle -> Py World FileHandle;
  readline : FileHandle -> Py World bytes;
  exit : FileHandle -> option exn -> Py World bool;
  (* earthaccess.download(granules, local_path=...) *)
  download : list DataGranule -> string -> Py World (list string)
}.

(** ** The interpreter state: the library's world and standard output *)

Record State (ea : Earthaccess) : Type := {
  world : World ea;
  stdout : list string
}.

Arguments Build_State {ea} world stdout.
Arguments world {ea} s.
Arguments stdout {ea} s.

(** A library call run by the interpreter: it acts on the world only. *)
Definition call {ea A} (m : Py (World ea) A) : Py (State ea) A :=
  fun s =>
    match m (world s) with
    | Returns a w => Returns a (Build_State w (stdout s))
    | Raises e w => Raises e (Build_State w (stdout s))
    end.

(** [print(x)] *)
Definition print {ea} (line : string) : Py (State ea) unit :=
  fun s => Returns tt (Build_State (world s) (stdout s ++ [line])).

(** [with mgr as file: body]: [__enter__], the body, then [__exit__];
    when the body raises, [__exit__] sees the exception and the
    statement re-raises it unless [__exit__] answers true.  The result
    is [None] when the body did not finish. *)
Definition with_as {ea A} (mgr : FileHandle ea)
    (body : FileHandle ea -> Py (State ea) A) : Py (State ea) (option A) :=
  file <- call (enter ea mgr) ;;
  fun s =>
    match body file s with
    | Returns a s' => (call (exit ea mgr None) ;; ret (Some a)) s'
    | Raises e s' =>
        (suppressed <- call (exit ea mgr (Some e)) ;;
         if (suppressed : bool) then ret None else raise e) s'
    end.

(** ** The notebook *)

(** Lines 161-163: the search domain shared by two searches. *)
Definition tspan : string * string := ("2024-05-01", "2024-05-16").

Definition bbox : decimal * decimal * decimal * decimal :=
  (Decimal (-7675) (-2), Decimal 3697 (-2),
   Decimal (-7574) (-2), Decimal 3901 (-2)).

Definition clouds : Z * Z := (0%Z, 50%Z).

(** Line 128: [instrument="oci"]. *)
Definition oci_collections : DatasetQuery :=
  {| instrument := Some "oci" |}.

(** Lines 148-151: [short_name="PACE_OCI_L2_BGC_NRT", count=1]. *)
Definition one_granule : GranuleQuery :=
  {| short_name := Some "PACE_OCI_L2_BGC_NRT";
     temporal := None;
     bounding_box := None;
     cloud_cover := None;
     count := Some 1%Z |}.

(** Lines 165-170: the constrained search, no [count]. *)
Definition constrained : GranuleQuery :=
  {| short_name := Some "PACE_OCI_L2_BGC_NRT";
     temporal := Some tspan;
     bounding_box := Some bbox;
     cloud_cover := Some clouds;
     count := None |}.

(** Lines 193-198: the Level-1B search, [count=2]. *)
Definition level1b : GranuleQuery :=
  {| short_name := Some "PACE_OCI_L1B_SCI";
     temporal := Some tspan;
     bounding_box := Some bbox;
     cloud_cover := None;
     count := Some 2%Z |}.

Section Notebook.

Variable ea : Earthaccess.

Local Abbreviation Cell := (Py (State ea)).

(** Lines 117-170: login, the collection listing, the one-granule search
    and the constrained search.  The value is the binding of [results]
    that the constrained search leaves. *)
Definition through_constrained_search : Cell (list (DataGranule ea)) :=
  auth <- call (login ea true) ;;
  results <- call (search_datasets ea oci_collections) ;;
  for_each results (fun item =>
    summary <- call (summary ea item) ;;
    short <- dict_getitem summary "short-name" ;;
    print (str ea short)) ;;
  results <- call (search_data ea one_granule) ;;
  results <- call (search_data ea constrained) ;;
  ret results.

(** Lines 181-198: the three subscript cells, then the Level-1B search,
    which rebinds [results]. *)
Definition through_level1b_search : Cell (list (DataGranule ea)) :=
  results <- through_constrained_search ;;
  getitem results 0 ;;
  getitem results 1 ;;
  getitem results 2 ;;
  results <- call (search_data ea level1b) ;;
  ret results.

(** Line 204: [paths = earthaccess.open(results)]. *)
Definition through_open : Cell (list (DataGranule ea) * list (FileHandle ea)) :=
  results <- through_level1b_search ;;
  paths <- call (open ea results) ;;
  ret (results, paths).

(** Lines 210-212: read one stripped line through the first handle.
    [line] stays unbound when [__exit__] swallows an exception of the
    body, and the cell that evaluates it then raises [NameError]. *)
Definition first_line (paths : list (FileHandle ea)) : Cell bytes :=
  mgr <- getitem paths 0 ;;
  bound <- with_as mgr (fun file =>
    raw <- call (readline ea file) ;;
    ret (strip raw)) ;;
  match bound with
  | Some line => ret line
  | None => raise (NameError "line")
  end.

(** The whole notebook.  Its value is what the last two expression
    cells show: [line] and the downloaded [paths]. *)
Definition script : Cell (bytes * list string) :=
  opened <- through_open ;;
  let '(results, paths) := opened in
  line <- first_line paths ;;
  paths <- call (download ea results "L1B") ;;
  ret (line, paths).

(** What the notebook takes for granted about [earthaccess.open]: no
    descriptors in, no handles out. *)
Definition opens_only_what_is_given : Prop :=
  forall w handles w',
    open ea [] w = Returns handles w' -> handles = [].

(** The stronger contract of the design: as many handles as descriptors. *)
Definition open_keeps_length : Prop :=
  forall granules w handles w',
    open ea granules w = Returns handles w' ->
    length handles = length granules.

End Notebook.

(** ** A small archive to run the notebook against

    Every search answers with the archive's granules, truncated by
    [count]; a handle is the granule's name and reads as an HDF5
    signature line; a download adds the files that are not there yet. *)

Definition truncate {A} (n : option Z) (l : list A) : list A :=
  match n with
  | Some k => firstn (Z.to_nat k) l
  | None => l
  end.

Definition archive (granules : list string) : Earthaccess :=
  {| World := list string;            (* the files under the local path *)
     Auth := unit;
     DataCollection := string;
     DataGranule := string;
     FileHandle := string;
     PyObject := string;
     login := fun _ => ret tt;
     search_datasets := fun _ => ret ["PACE_OCI_L2_BGC_NRT"; "PACE_OCI_L1B_SCI"];
     summary := fun c => ret [("short-name", c)];
     str := fun v => v;
     search_data := fun q => ret (truncate (count q) granules);
     open := fun found => ret found;
     enter := fun h => ret h;
     readline := fun _ => ret [x89; x48; x44; x46; x0d; x0a];
     exit := fun _ _ => ret false;
     download := fun found dir files =>
       let paths := map (fun g => dir ++ "/" ++ g)%string found in
       Returns paths
         (files ++ filter (fun p => negb (existsb (String.eqb p) files)) paths)
  |}.

Definition three_granule_archive : Earthaccess :=
  archive ["granule_a.nc"; "granule_b.nc"; "granule_c.nc"].

Definition fresh_start (granules : list string) : State (archive granules) :=
  @Build_State (archive granules) ([] : list string) [].

(** What the collection listing prints on an archive. *)
Definition printed : list string :=
  ["PACE_OCI_L2_BGC_NRT"; "PACE_OCI_L1B_SCI"].

(** ** The cells one by one *)

Section Cells.

Variable ea : Earthaccess.

(** Lines 131-132: the body of the [for] loop over the collections. *)
Definition print_short_name (item : DataCollection ea) : Py (State ea) unit :=
  summary <- call (summary ea item) ;;
  short <- dict_getitem summary "short-name" ;;
  print (str ea short).

(** Lines 130-132: the loop. *)
Definition listing (results : list (DataCollection ea)) : Py (State ea) unit :=
  for_each results print_short_name.

(** [line] is what the loop prints for [item]: the [str] of the
    ["short-name"] entry of a summary the library gave for it. *)
Definition shows (item : DataCollection ea) (line : string) : Prop :=
  exists w d w' short,
    summary ea item w = Returns d w' /\
    dict_get d "short-name" = Some short /\
    line = str ea short.

(** [e] came out of one of the calls the notebook makes into the
    library. *)
Definition raised_by_library (e : exn) : Prop :=
  (exists w w', login ea true w = Raises e w') \/
  (exists w w', search_datasets ea oci_collections w = Raises e w') \/
  (exists item w w', summary ea item w = Raises e w') \/
  (exists q w w', search_data ea q w = Raises e w') \/
  (exists found w w', open ea found w = Raises e w') \/
  (exists h w w', enter ea h w = Raises e w') \/
  (exists h w w', readline ea h w = Raises e w') \/
  (exists h inflight w w', exit ea h inflight w = Raises e w') \/
  (exists found w w', download ea found "L1B" w = Raises e w').

End Cells.

(** ASCII whitespace only. *)
Definition blank (l : bytes) : Prop := Forall (fun b => is_space b = true) l.

(** ** An archive that can go wrong

    The same archive with switches for the failures the notebook can
    meet: a refused login, a second collection whose summary has no
    short name, no handle from [open], a read that fails, an [__exit__]
    that swallows. *)

Record Faults : Type := {
  refuses_login : bool;
  omits_short_name : bool;
  opens_nothing : bool;
  read_fails : bool;
  swallows : bool
}.

Definition faulty_archive (f : Faults) (granules : list string) : Earthaccess :=
  {| World := list string;
     Auth := unit;
     DataCollection := string;
     DataGranule := string;
     FileHandle := string;
     PyObject := string;
     login := fun _ =>
       if refuses_login f then raise (LibraryError "LoginAttemptFailure")
       else ret tt;
     search_datasets := fun _ => ret ["PACE_OCI_L2_BGC_NRT"; "PACE_OCI_L1B_SCI"];
     summary := fun c =>
       ret (if omits_short_name f && String.eqb c "PACE_OCI_L1B_SCI"
            then [("concept-id", c)]
            else [("short-name", c)]);
     str := fun v => v;
     search_data := fun q => ret (truncate (count q) granules);
     open := fun found => ret (if opens_nothing f then [] else found);
     enter := fun h => ret h;
     readline := fun _ =>
       if read_fails f then raise (LibraryError "OSError")
       else ret [x20; x89; x48; x44; x46; x0d; x0a];
     exit := fun _ _ => ret (swallows f);
     download := fun found dir files =>
       let paths := map (fun g => dir ++ "/" ++ g)%string found in
       Returns paths
         (files ++ filter (fun p => negb (existsb (String.eqb p) files)) paths)
  |}.

Definition no_fault : Faults :=
  {| refuses_login := false; omits_short_name := false;
     opens_nothing := false; read_fails := false; swallows := false |}.

Definition no_handle : Faults :=
  {| refuses_login := false; omits_short_name := false;
     opens_nothing := true; read_fails := false; swallows := false |}.

Definition no_short_name : Faults :=
  {| refuses_login := false; omits_short_name := true;
     opens_nothing := false; read_fails := false; swallows := false |}.

Definition swallowed_read : Faults :=
  {| refuses_login := false; omits_short_name := false;
     opens_nothing := false; read_fails := true; swallows := true |}.

Definition refused_login : Faults :=
  {| refuses_login := true; omits_short_name := false;
     opens_nothing := false; read_fails := false; swallows := false |}.

Definition three_names : list string :=
  ["granule_a.nc"; "granule_b.nc"; "granule_c.nc"].

Definition faulty_start (f : Faults) (granules : list string)
  : State (faulty_archive f granules) :=
  @Build_State (faulty_archive f granules) ([] : list string) [].

(** ** Reasoning about runs *)

Lemma bind_returns {S A B} (m : Py S A) (f : A -> Py S B) s b s' :
  bind m f s = Returns b s' ->
  exists a s1, m s = Returns a s1 /\ f a s1 = Returns b s'.
Proof.
  unfold bind. destruct (m s) as [a s1 | e s1] eqn:Hm; intros H.
  - exists a, s1. split; [reflexivity | exact H].
  - discriminate H.
Qed.

Lemma bind_step {S A B} (m : Py S A) (f : A -> Py S B) s a s1 :
  m s = Returns a s1 -> bind m f s = f a s1.
Proof. intros H. unfold bind. rewrite H. reflexivity. Qed.

Lemma bind_raises {S A B} (m : Py S A) (f : A -> Py S B) s e s1 :
  m s = Raises e s1 -> bind m f s = Raises e s1.
Proof. intros H. unfold bind. rewrite H. reflexivity. Qed.

Lemma ret_returns {S A} (a b : A) (s s' : S) :
  ret a s = Returns b s' -> a = b /\ s = s'.
Proof. unfold ret. intros H. injection H as -> ->. split; reflexivity. Qed.

(** A subscript with a literal index [i >= 0] is in range exactly when
    the list has more than [i] elements. *)
Lemma list_getitem_in_range {A} (l : list A) (i : Z) :
  (0 <= i)%Z ->
  list_getitem l i <> None <-> (i < Z.of_nat (length l))%Z.
Proof.
  intros Hi. unfold list_getitem.
  destruct (Z.ltb_spec i 0) as [Hneg | _]; [lia |].
  destruct (Z.ltb_spec i 0) as [Hneg | _]; [lia |].
  cbn [orb].
  destruct (Z.leb_spec (Z.of_nat (length l)) i) as [Hout | Hin].
  - split; [intros H; contradiction H; reflexivity | lia].
  - split; [intros _; exact Hin |].
    intros _. apply nth_error_Some. lia.
Qed.

(** A negative index [-k] reads from the end and is in range exactly
    when the list has at least [k] elements. *)
Lemma list_getitem_negative {A} (l : list A) (i : Z) :
  (i < 0)%Z ->
  list_getitem l i <> None <-> (- i <= Z.of_nat (length l))%Z.
Proof.
  intros Hi. unfold list_getitem.
  destruct (Z.ltb_spec i 0) as [_ | Hpos]; [| lia].
  destruct (Z.ltb_spec (i + Z.of_nat (length l)) 0) as [Hlow | Hok]; cbn [orb].
  - split; [intros H; contradiction H; reflexivity | lia].
  - destruct (Z.leb_spec (Z.of_nat (length l)) (i + Z.of_nat (length l)))
      as [Hout | Hin]; [lia |].
    split; [lia |]. intros _. apply nth_error_Some. lia.
Qed.

Lemma getitem_returns {S A} (l : list A) (i : Z) (s s' : S) x :
  getitem l i s = Returns x s' -> list_getitem l i = Some x /\ s' = s.
Proof.
  unfold getitem. destruct (list_getitem l i) as [y |]; cbn; intros H.
  - injection H as -> ->. split; reflexivity.
  - discriminate H.
Qed.

Lemma getitem_raises {S A} (l : list A) (i : Z) (s : S) :
  list_getitem l i = None -> getitem l i s = Raises IndexError s.
Proof. intros H. unfold getitem. rewrite H. reflexivity. Qed.

(** A literal subscript [l[i]] either yields an element or raises
    [IndexError]; it never touches the state. *)
Lemma getitem_cases {S A} (l : list A) (i : Z) (s : S) :
  (0 <= i)%Z ->
  (exists x, getitem l i s = Returns x s /\ (i < Z.of_nat (length l))%Z) \/
  (getitem l i s = Raises IndexError s /\ (Z.of_nat (length l) <= i)%Z).
Proof.
  intros Hi. destruct (list_getitem l i) as [x |] eqn:Hx.
  - left. exists x. split.
    + unfold getitem. rewrite Hx. reflexivity.
    + apply list_getitem_in_range; [exact Hi | congruence].
  - right. split; [apply getitem_raises; exact Hx |].
    destruct (Z.le_gt_cases (Z.of_nat (length l)) i) as [H | H]; [exact H |].
    exfalso.
    apply (list_getitem_in_range l i Hi) in H. contradiction.
Qed.

(** [strip] leaves no whitespace at the front. *)
Lemma lstrip_head (l : bytes) b t :
  lstrip l = b :: t -> is_space b = false.
Proof.
  induction l as [| c l IH]; cbn; [discriminate |].
  destruct (is_space c) eqn:Hc; [exact IH |].
  intros H. injection H as <- _. exact Hc.
Qed.

Lemma lstrip_idempotent (l : bytes) : lstrip (lstrip l) = lstrip l.
Proof.
  destruct (lstrip l) as [| b t] eqn:H; [reflexivity |].
  cbn. rewrite (lstrip_head l b t H). reflexivity.
Qed.

Lemma call_returns {ea A} (m : Py (World ea) A) (s s' : State ea) a :
  call m s = Returns a s' ->
  exists w, m (world s) = Returns a w /\ s' = Build_State w (stdout s).
Proof.
  unfold call. destruct (m (world s)) as [b w | e w]; intros H.
  - injection H as -> <-. exists w. split; reflexivity.
  - discriminate H.
Qed.

(** Split a run of [x <- m ;; k] that returned into the run of [m] and
    the run of [k]. *)
Tactic Notation "run_bind" hyp(H) "as" ident(a) ident(s) ident(Hm) :=
  apply bind_returns in H as (a & s & Hm & H).

Section NotebookRuns.

Variable ea : Earthaccess.

(** The three subscript cells of lines 181-185 pass exactly on a list of
    three or more descriptors, and change nothing. *)
Lemma subscript_cells_pass (results : list (DataGranule ea)) (s : State ea) :
  3 <= length results ->
  exists r0 r1 r2,
    getitem results 0 s = Returns r0 s /\
    getitem results 1 s = Returns r1 s /\
    getitem results 2 s = Returns r2 s.
Proof.
  intros Hlen.
  destruct (getitem_cases results 0 s) as [(r0 & H0 & _) | [_ H0]]; [lia | | lia].
  destruct (getitem_cases results 1 s) as [(r1 & H1 & _) | [_ H1]]; [lia | | lia].
  destruct (getitem_cases results 2 s) as [(r2 & H2 & _) | [_ H2]]; [lia | | lia].
  exists r0, r1, r2. repeat split; assumption.
Qed.

Lemma subscript_cells_raise (results : list (DataGranule ea)) (s : State ea)
    (B : Type) (k : Py (State ea) B) :
  length results < 3 ->
  (getitem results 0 ;; getitem results 1 ;; getitem results 2 ;; k) s
  = Raises IndexError s.
Proof.
  intros Hlen.
  destruct results as [| r0 [| r1 [| r2 rest]]]; cbn in Hlen; try lia;
    reflexivity.
Qed.

(** X1.  A run in which the constrained search returns fewer than three
    descriptors ends in [IndexError] at the subscript cells, in the
    state the search left: no Level-1B search, nothing opened or
    downloaded. *)
Lemma script_raises_on_short_search (s s1 : State ea) found :
  through_constrained_search ea s = Returns found s1 ->
  length found < 3 ->
  script ea s = Raises IndexError s1.
Proof.
  intros Hrun Hlen.
  assert (Hl1 : through_level1b_search ea s = Raises IndexError s1).
  { unfold through_level1b_search. rewrite (bind_step _ _ _ _ _ Hrun).
    apply subscript_cells_raise. exact Hlen. }
  unfold script. apply bind_raises.
  unfold through_open. apply bind_raises. exact Hl1.
Qed.

(** X2.  A run in which [earthaccess.open] hands back no handle ends in
    [IndexError] at [paths[0]], in the state [open] left: nothing is
    read or downloaded. *)
Lemma script_raises_on_no_handle (s s3 : State ea) level1 :
  through_open ea s = Returns (level1, []) s3 ->
  script ea s = Raises IndexError s3.
Proof.
  intros Hrun. unfold script. rewrite (bind_step _ _ _ _ _ Hrun).
  reflexivity.
Qed.

(** The design's same-length contract for [open] gives the weaker one
    the notebook relies on. *)
Lemma open_keeps_length_only_given :
  open_keeps_length ea -> opens_only_what_is_given ea.
Proof.
  intros Hlen w handles w' Hopen.
  apply Hlen in Hopen. destruct handles; [reflexivity | discriminate Hopen].
Qed.

End NotebookRuns.

(** ** Runs on small archives *)

Example run_three_granules :
  script three_granule_archive (fresh_start _)
  = Returns ([x89; x48; x44; x46], ["L1B/granule_a.nc"; "L1B/granule_b.nc"])
      (@Build_State three_granule_archive
         ["L1B/granule_a.nc"; "L1B/granule_b.nc"] printed).
Proof. vm_compute. reflexivity. Qed.

(** Two granules: [results[2]] raises. *)
Example run_two_granules :
  script (archive ["granule_a.nc"; "granule_b.nc"]) (fresh_start _)
  = Raises IndexError (@Build_State (archive _) [] printed).
Proof. vm_compute. reflexivity. Qed.

(** An empty answer is no error of the search, but the next cell,
    [results[0]], raises. *)
Example run_no_granules :
  script (archive []) (fresh_start _)
  = Raises IndexError (@Build_State (archive _) [] printed).
Proof. vm_compute. reflexivity. Qed.

Example strip_signature_line :
  strip [x20; x89; x48; x44; x46; x0d; x0a] = [x89; x48; x44; x46].
Proof. reflexivity. Qed.

Example getitem_last : list_getitem [10; 20; 30] (-1) = Some 30.
Proof. reflexivity. Qed.

Example getitem_past_end : list_getitem [10; 20; 30] 3 = None.
Proof. reflexivity. Qed.

(** ** The unguarded subscripts *)

(** C10.  The notebook subscripts [results] at 0, 1 and 2 after the
    constrained search and [paths] at 0 after [earthaccess.open], with no
    guard.  So a run that completes is one in which the constrained
    search returned at least three descriptors and the [count=2] search
    at least one, [earthaccess.open] giving no handle for an empty list
    of descriptors. *)
Theorem script_completes_only_with_enough_results
    (ea : Earthaccess) (s s' : State ea) (shown : bytes * list string) :
  opens_only_what_is_given ea ->
  script ea s = Returns shown s' ->
  exists found s1 level1 s2,
    through_constrained_search ea s = Returns found s1 /\
    3 <= length found /\
    through_level1b_search ea s = Returns level1 s2 /\
    1 <= length level1.
Proof.
  intros Hopen H.
  unfold script in H. run_bind H as opened s3 Hopened.
  destruct opened as [results paths].
  run_bind H as line s4 Hline. clear H.
  (* paths[0] *)
  unfold first_line in Hline. run_bind Hline as mgr s3' Hmgr. clear Hline.
  apply getitem_returns in Hmgr as [Hp0 _].
  (* paths = earthaccess.open(results) *)
  unfold through_open in Hopened.
  run_bind Hopened as level1 s2 Hlevel1.
  run_bind Hopened as handles s2' Hcall.
  apply ret_returns in Hopened as [Heq _]. injection Heq as -> ->.
  apply call_returns in Hcall as (w & Hcall & _).
  assert (Hresults : 1 <= length results).
  { destruct results as [| g rest]; [| cbn; lia].
    apply Hopen in Hcall. subst paths. discriminate Hp0. }
  (* results[0], results[1], results[2] *)
  pose proof Hlevel1 as Hsearch.
  unfold through_level1b_search in Hsearch.
  run_bind Hsearch as found s1 Hfound.
  run_bind Hsearch as r0 s1a Hr0.
  run_bind Hsearch as r1 s1b Hr1.
  run_bind Hsearch as r2 s1c Hr2. clear Hsearch.
  apply getitem_returns in Hr2 as [Hr2 _].
  assert (Hthree : 3 <= length found).
  { assert (Hz : (2 < Z.of_nat (length found))%Z).
    { apply list_getitem_in_range; [lia | congruence]. }
    lia. }
  exists found, s1, results, s2. repeat split; assumption.
Qed.

(** The run on the three-granule archive completes, and meets both
    bounds. *)
Lemma script_completes_only_with_enough_results_witness :
  exists found s1 level1 s2,
    through_constrained_search three_granule_archive (fresh_start _)
      = Returns found s1 /\
    3 <= length found /\
    through_level1b_search three_granule_archive (fresh_start _)
      = Returns level1 s2 /\
    1 <= length level1.
Proof.
  apply (script_completes_only_with_enough_results three_granule_archive
           (fresh_start _)
           (@Build_State three_granule_archive
              ["L1B/granule_a.nc"; "L1B/granule_b.nc"]
              ["PACE_OCI_L2_BGC_NRT"; "PACE_OCI_L1B_SCI"])
           ([x89; x48; x44; x46],
            ["L1B/granule_a.nc"; "L1B/granule_b.nc"])).
  - intros w handles w' H. vm_compute in H. injection H as <- _. reflexivity.
  - vm_compute. reflexivity.
Defined.

(** ** More on runs: raised exceptions and standard output *)

Lemma bind_raised {S A B} (m : Py S A) (f : A -> Py S B) s e s' :
  bind m f s = Raises e s' ->
  m s = Raises e s' \/
  exists a s1, m s = Returns a s1 /\ f a s1 = Raises e s'.
Proof.
  unfold bind. destruct (m s) as [a s1 | e1 s1]; intros H.
  - right. exists a, s1. split; [reflexivity | exact H].
  - left. injection H as -> ->. reflexivity.
Qed.

Lemma call_raised {ea A} (m : Py (World ea) A) (s s' : State ea) e :
  call m s = Raises e s' ->
  exists w, m (world s) = Raises e w /\ s' = Build_State w (stdout s).
Proof.
  unfold call. destruct (m (world s)) as [b w | e1 w]; intros H.
  - discriminate H.
  - injection H as -> <-. exists w. split; reflexivity.
Qed.

Lemma call_run {ea A} (m : Py (World ea) A) (s : State ea) a w :
  m (world s) = Returns a w ->
  call m s = Returns a (Build_State w (stdout s)).
Proof. intros H. unfold call. rewrite H. reflexivity. Qed.

Lemma call_fail {ea A} (m : Py (World ea) A) (s : State ea) e w :
  m (world s) = Raises e w ->
  call m s = Raises e (Build_State w (stdout s)).
Proof. intros H. unfold call. rewrite H. reflexivity. Qed.

Lemma getitem_raised {S A} (l : list A) (i : Z) (s s' : S) e :
  getitem l i s = Raises e s' -> e = IndexError /\ s' = s.
Proof.
  unfold getitem. destruct (list_getitem l i); cbn; intros H.
  - discriminate H.
  - injection H as <- <-. split; reflexivity.
Qed.

Lemma dict_getitem_returns {S V} (d : dict V) k (s s' : S) v :
  dict_getitem d k s = Returns v s' -> dict_get d k = Some v /\ s' = s.
Proof.
  unfold dict_getitem. destruct (dict_get d k); cbn; intros H.
  - injection H as -> ->. split; reflexivity.
  - discriminate H.
Qed.

Lemma dict_getitem_raised {S V} (d : dict V) k (s s' : S) e :
  dict_getitem d k s = Raises e s' ->
  dict_get d k = None /\ e = KeyError k /\ s' = s.
Proof.
  unfold dict_getitem. destruct (dict_get d k); cbn; intros H.
  - discriminate H.
  - injection H as <- <-. repeat split.
Qed.

(** A loop over [xs ++ ys] is the loop over [xs], then the loop over
    [ys]. *)
Lemma for_each_app {S A} (xs ys : list A) (body : A -> Py S unit) s :
  for_each (xs ++ ys) body s = (for_each xs body ;; for_each ys body) s.
Proof.
  revert s. induction xs as [| x xs IH]; intros s; [reflexivity |].
  cbn [for_each app]. unfold bind in *.
  destruct (body x s) as [[] s1 | e s1]; [apply IH | reflexivity].
Qed.

Section CellRuns.

Variable ea : Earthaccess.

(** One pass of the loop body that returns has printed one line, the
    short name of the item. *)
Lemma print_short_name_returns item (s s' : State ea) :
  print_short_name ea item s = Returns tt s' ->
  exists line, shows ea item line /\ stdout s' = stdout s ++ [line].
Proof.
  unfold print_short_name. intros H.
  run_bind H as d s1 Hd. run_bind H as short s2 Hshort.
  apply call_returns in Hd as (w & Hd & ->).
  apply dict_getitem_returns in Hshort as [Hshort ->].
  unfold print in H. injection H as <-. cbn.
  exists (str ea short). split; [| reflexivity].
  exists (world s), d, w, short. repeat split; assumption.
Qed.

(** The loop body raises either [KeyError "short-name"] or what
    [summary] raised; it has printed nothing then. *)
Lemma print_short_name_raised item (s s' : State ea) e :
  print_short_name ea item s = Raises e s' ->
  stdout s' = stdout s /\
  (e = KeyError "short-name" \/
   exists w w', summary ea item w = Raises e w').
Proof.
  unfold print_short_name. intros H.
  apply bind_raised in H as [H | (d & s1 & Hd & H)].
  - apply call_raised in H as (w & H & ->). split; [reflexivity |].
    right. exists (world s), w. exact H.
  - apply call_returns in Hd as (w & Hd & ->).
    apply bind_raised in H as [H | (short & s2 & _ & H)].
    + apply dict_getitem_raised in H as (_ & -> & ->).
      split; [reflexivity | left; reflexivity].
    + discriminate H.
Qed.

Lemma listing_returns results (s s' : State ea) :
  listing ea results s = Returns tt s' ->
  exists lines,
    stdout s' = stdout s ++ lines /\ Forall2 (shows ea) results lines.
Proof.
  revert s. induction results as [| item rest IH]; intros s H.
  - injection H as <-. exists []. split; [| constructor].
    symmetry. apply app_nil_r.
  - unfold listing in H. cbn [for_each] in H.
    run_bind H as u s1 Hitem. destruct u.
    apply print_short_name_returns in Hitem as (line & Hshows & Hout).
    apply IH in H as (lines & Hout' & Hall).
    exists (line :: lines). split; [| constructor; assumption].
    rewrite Hout', Hout, <- app_assoc. reflexivity.
Qed.

Lemma listing_raised results (s s' : State ea) e :
  listing ea results s = Raises e s' ->
  e = KeyError "short-name" \/
  exists item w w', summary ea item w = Raises e w'.
Proof.
  revert s. induction results as [| item rest IH]; intros s H.
  - discriminate H.
  - unfold listing in H. cbn [for_each] in H.
    apply bind_raised in H as [H | (u & s1 & _ & H)].
    + apply print_short_name_raised in H as [_ [H | (w & w' & H)]].
      * left. exact H.
      * right. exists item, w, w'. exact H.
    + apply IH in H. exact H.
Qed.

(** [first_line] returns only along the plain path: a handle at index
    0, [__enter__], [readline], [__exit__] without an exception. *)
Lemma first_line_returns paths (s s' : State ea) line :
  first_line ea paths s = Returns line s' ->
  exists mgr file w1 raw w2 b w3,
    list_getitem paths 0 = Some mgr /\
    enter ea mgr (world s) = Returns file w1 /\
    readline ea file w1 = Returns raw w2 /\
    exit ea mgr None w2 = Returns b w3 /\
    line = strip raw /\
    s' = Build_State w3 (stdout s).
Proof.
  unfold first_line. intros H.
  run_bind H as mgr s0 Hmgr. apply getitem_returns in Hmgr as [Hmgr ->].
  run_bind H as bound s1 Hwith.
  unfold with_as in Hwith. run_bind Hwith as file s2 Henter.
  apply call_returns in Henter as (w1 & Henter & ->).
  destruct (bind (call (readline ea file)) (fun raw => ret (strip raw))
              (Build_State w1 (stdout s))) as [stripped s3 | e s3] eqn:Hbody.
  - run_bind Hbody as raw s4 Hread.
    apply call_returns in Hread as (w2 & Hread & ->).
    apply ret_returns in Hbody as [<- <-].
    run_bind Hwith as b s5 Hexit.
    apply call_returns in Hexit as (w3 & Hexit & ->).
    apply ret_returns in Hwith as [<- <-].
    apply ret_returns in H as [<- <-].
    exists mgr, file, w1, raw, w2, b, w3. repeat split; assumption.
  - apply bind_returns in Hwith as (sup & s5 & _ & Hwith).
    destruct sup.
    + apply ret_returns in Hwith as [<- _]. discriminate H.
    + discriminate Hwith.
Qed.

(** A complete run is this chain of calls, each from the state the one
    before left. *)
Lemma script_returns_chain (s s' : State ea) line paths :
  script ea s = Returns (line, paths) s' ->
  exists auth sA colls sB sC first sD found sE level1 sF handles sG sH,
    call (login ea true) s = Returns auth sA /\
    call (search_datasets ea oci_collections) sA = Returns colls sB /\
    listing ea colls sB = Returns tt sC /\
    call (search_data ea one_granule) sC = Returns first sD /\
    call (search_data ea constrained) sD = Returns found sE /\
    call (search_data ea level1b) sE = Returns level1 sF /\
    call (open ea level1) sF = Returns handles sG /\
    first_line ea handles sG = Returns line sH /\
    call (download ea level1 "L1B") sH = Returns paths s'.
Proof.
  intros H. unfold script in H.
  run_bind H as opened sG Hopened. destruct opened as [level1 handles].
  run_bind H as line' sH Hline. run_bind H as paths' s'' Hdown.
  apply ret_returns in H as [Heq <-]. injection Heq as <- <-.
  unfold through_open in Hopened.
  run_bind Hopened as level1' sF Hl1. run_bind Hopened as handles' sG' Hopen.
  apply ret_returns in Hopened as [Heq <-]. injection Heq as <- <-.
  unfold through_level1b_search in Hl1.
  run_bind Hl1 as found sE Hfound.
  run_bind Hl1 as r0 t0 Hr0. apply getitem_returns in Hr0 as [_ ->].
  run_bind Hl1 as r1 t1 Hr1. apply getitem_returns in Hr1 as [_ ->].
  run_bind Hl1 as r2 t2 Hr2. apply getitem_returns in Hr2 as [_ ->].
  run_bind Hl1 as level1'' sF' Hsearch.
  apply ret_returns in Hl1 as [<- <-].
  unfold through_constrained_search in Hfound.
  run_bind Hfound as auth sA Hlogin.
  run_bind Hfound as colls sB Hcolls.
  run_bind Hfound as u sC Hlist. destruct u.
  run_bind Hfound as first sD Hfirst.
  run_bind Hfound as found' sE' Hcons.
  apply ret_returns in Hfound as [<- <-].
  exists auth, sA, colls, sB, sC, first, sD, found', sE', level1'', sF',
    handles', sG', sH.
  repeat split; assumption.
Qed.

End CellRuns.

(** ** [bytes.strip()] removes whitespace at both ends and nothing else *)

Lemma lstrip_split (l : bytes) :
  exists pre, l = pre ++ lstrip l /\ blank pre.
Proof.
  induction l as [| b t (pre & Ht & Hpre)].
  - exists []. split; [reflexivity | constructor].
  - cbn [lstrip]. destruct (is_space b) eqn:Hb.
    + exists (b :: pre). split.
      * cbn. rewrite <- Ht. reflexivity.
      * constructor; assumption.
    + exists []. split; [reflexivity | constructor].
Qed.

Lemma rstrip_split (l : bytes) :
  exists post, l = rstrip l ++ post /\ blank post.
Proof.
  destruct (lstrip_split (rev l)) as (pre & Hl & Hpre).
  exists (rev pre). split.
  - unfold rstrip. rewrite <- rev_app_distr, <- Hl. symmetry.
    apply rev_involutive.
  - apply Forall_rev. exact Hpre.
Qed.

Lemma rstrip_last (l t : bytes) b :
  rstrip l = t ++ [b] -> is_space b = false.
Proof.
  unfold rstrip. intros H. apply (f_equal (@rev byte)) in H.
  rewrite rev_involutive, rev_app_distr in H. cbn in H.
  apply (lstrip_head _ _ _ H).
Qed.

Lemma strip_split (raw : bytes) :
  exists pre post, raw = pre ++ strip raw ++ post /\ blank pre /\ blank post.
Proof.
  destruct (lstrip_split raw) as (pre & Hraw & Hpre).
  destruct (rstrip_split (lstrip raw)) as (post & Hl & Hpost).
  exists pre, post. repeat split; [| assumption | assumption].
  unfold strip. rewrite <- Hl. exact Hraw.
Qed.

Lemma strip_head (raw : bytes) b t :
  strip raw = b :: t -> is_space b = false.
Proof.
  unfold strip. intros H.
  destruct (rstrip_split (lstrip raw)) as (post & Hl & _).
  rewrite H in Hl. cbn in Hl. apply (lstrip_head _ _ _ Hl).
Qed.

Lemma strip_last (raw t : bytes) b :
  strip raw = t ++ [b] -> is_space b = false.
Proof. unfold strip. apply rstrip_last. Qed.

(** The first element of a non-empty list is at index 0. *)
Lemma list_getitem_head {A} (x : A) (l : list A) :
  list_getitem (x :: l) 0 = Some x.
Proof.
  unfold list_getitem. cbn [Z.ltb Z.compare].
  destruct (Z.leb_spec (Z.of_nat (length (x :: l))) 0) as [H | _].
  - cbn [length] in H. lia.
  - reflexivity.
Qed.

(** ** What the cells do beyond the subscripts *)

Ltac from_library :=
  first [ solve [eauto 8] | left; from_library | right; from_library ].


(** X4.  When the summary of a collection has no ["short-name"] entry,
    the run ends in [KeyError "short-name"] at that collection: the
    collections before it stay printed and no granule search is made. *)
Theorem script_raises_key_error
    (ea : Earthaccess) (s s0 s1 : State ea)
    (before after : list (DataCollection ea)) (item : DataCollection ea)
    (d : dict (PyObject ea)) (w : World ea) :
  (call (login ea true) ;; call (search_datasets ea oci_collections)) s
    = Returns (before ++ item :: after) s0 ->
  listing ea before s0 = Returns tt s1 ->
  summary ea item (world s1) = Returns d w ->
  dict_get d "short-name" = None ->
  script ea s = Raises (KeyError "short-name") (Build_State w (stdout s1)).
Proof.
  intros Hcolls Hbefore Hsummary Hmissing.
  run_bind Hcolls as auth sA Hlogin.
  unfold script. apply bind_raises.
  unfold through_open. apply bind_raises.
  unfold through_level1b_search. apply bind_raises.
  unfold through_constrained_search.
  rewrite (bind_step _ _ _ _ _ Hlogin), (bind_step _ _ _ _ _ Hcolls).
  apply bind_raises.
  change (for_each (before ++ item :: after) (print_short_name ea) s0
          = Raises (KeyError "short-name") (Build_State w (stdout s1))).
  rewrite for_each_app. unfold listing in Hbefore.
  rewrite (bind_step _ _ _ _ _ Hbefore).
  cbn [for_each]. apply bind_raises. unfold print_short_name.
  rewrite (bind_step _ _ _ _ _ (call_run _ _ _ _ Hsummary)).
  apply bind_raises. unfold dict_getitem. rewrite Hmissing. reflexivity.
Qed.




(** X8.  When [readline] raises inside the [with] block, [__exit__] of
    the first handle is called with that exception.  If it declines,
    the run ends in the read's exception; if it swallows it, [line]
    was never bound and the run ends in [NameError "line"].  Either
    way nothing is downloaded. *)
Theorem script_read_failure
    (ea : Earthaccess) (s s3 : State ea)
    (level1 : list (DataGranule ea)) (mgr file : FileHandle ea)
    (rest : list (FileHandle ea)) (w1 w2 w3 : World ea) (e0 : exn) (b : bool) :
  through_open ea s = Returns (level1, mgr :: rest) s3 ->
  enter ea mgr (world s3) = Returns file w1 ->
  readline ea file w1 = Raises e0 w2 ->
  exit ea mgr (Some e0) w2 = Returns b w3 ->
  script ea s
  = Raises (if b then NameError "line" else e0) (Build_State w3 (stdout s3)).
Proof.
  intros Hopened Henter Hread Hexit.
  unfold script. rewrite (bind_step _ _ _ _ _ Hopened). cbn beta iota.
  assert (Hline : first_line ea (mgr :: rest) s3
                  = Raises (if b then NameError "line" else e0)
                      (Build_State w3 (stdout s3))).
  { unfold first_line.
    assert (Hmgr : getitem (mgr :: rest) 0 s3 = Returns mgr s3).
    { unfold getitem. rewrite list_getitem_head. reflexivity. }
    rewrite (bind_step _ _ _ _ _ Hmgr).
    assert (Hwith :
      with_as mgr (fun file => raw <- call (readline ea file) ;; ret (strip raw)) s3
      = if b then Returns None (Build_State w3 (stdout s3))
        else Raises e0 (Build_State w3 (stdout s3))).
    { unfold with_as, bind.
      rewrite (call_run _ _ _ _ Henter).
      rewrite (call_fail _ (Build_State w1 (stdout s3)) _ _ Hread).
      cbn [stdout world].
      rewrite (call_run _ (Build_State w2 (stdout s3)) _ _ Hexit).
      destruct b; reflexivity. }
    cbn beta. destruct b.
    - rewrite (bind_step _ _ _ _ _ Hwith). reflexivity.
    - apply bind_raises. exact Hwith. }
  apply bind_raises. exact Hline.
Qed.


(** ** The properties above on the small archives *)

Lemma script_raises_on_short_search_witness :
  script (archive ["granule_a.nc"; "granule_b.nc"]) (fresh_start _)
  = Raises IndexError (@Build_State (archive _) [] printed).
Proof.
  apply (script_raises_on_short_search
           (archive ["granule_a.nc"; "granule_b.nc"]) (fresh_start _)
           (@Build_State (archive _) [] printed)
           ["granule_a.nc"; "granule_b.nc"]).
  - vm_compute. reflexivity.
  - cbn. lia.
Defined.

Lemma script_raises_on_no_handle_witness :
  script (faulty_archive no_handle three_names) (faulty_start _ _)
  = Raises IndexError (@Build_State (faulty_archive _ _) [] printed).
Proof.
  apply (script_raises_on_no_handle
           (faulty_archive no_handle three_names) (faulty_start _ _)
           (@Build_State (faulty_archive _ _) [] printed)
           ["granule_a.nc"; "granule_b.nc"]).
  vm_compute. reflexivity.
Defined.


Lemma script_raises_key_error_witness :
  script (faulty_archive no_short_name three_names) (faulty_start _ _)
  = Raises (KeyError "short-name")
      (@Build_State (faulty_archive _ _) [] ["PACE_OCI_L2_BGC_NRT"]).
Proof.
  apply (script_raises_key_error
           (faulty_archive no_short_name three_names) (faulty_start _ _)
           (@Build_State (faulty_archive _ _) [] [])
           (@Build_State (faulty_archive _ _) [] ["PACE_OCI_L2_BGC_NRT"])
           ["PACE_OCI_L2_BGC_NRT"] [] "PACE_OCI_L1B_SCI"
           [("concept-id", "PACE_OCI_L1B_SCI")] []).
  - vm_compute. reflexivity.
  - vm_compute. reflexivity.
  - vm_compute. reflexivity.
  - vm_compute. reflexivity.
Defined.




Lemma script_read_failure_witness :
  script (faulty_archive swallowed_read three_names) (faulty_start _ _)
  = Raises (NameError "line") (@Build_State (faulty_archive _ _) [] printed).
Proof.
  apply (script_read_failure
           (faulty_archive swallowed_read three_names) (faulty_start _ _)
           (@Build_State (faulty_archive _ _) [] printed)
           ["granule_a.nc"; "granule_b.nc"] "granule_a.nc" "granule_a.nc"
           ["granule_b.nc"] [] [] [] (LibraryError "OSError") true).
  - vm_compute. reflexivity.
  - vm_compute. reflexivity.
  - vm_compute. reflexivity.
  - vm_compute. reflexivity.
Defined.

